(** * scripts/update.py: the tools-submodule updater

    A shallow embedding of [{{cookiecutter.project_slug}}/scripts/update.py]
    and the properties of its two branches.

    The script talks to three things outside itself: the filesystem (through
    [os.path.exists]), the console (through [print]) and a child process
    (through [subprocess.run]).  They are modelled as a small state and
    exception monad over the filesystem and a chronological trace of the
    calls the script makes; the shell that executes a command line is a
    parameter of the semantics.  When the text handed to [sys.stdout]
    reaches the console depends on how that stream is buffered; [console]
    derives it from the trace of the calls. *)

From stdpp Require Import base strings gmap list.
From Stdlib Require Import ZArith Lia Ascii.

Local Open Scope string_scope.
Local Open Scope Z_scope.

(** ** The environment *)

(** File types as [os.stat] reports them in [st_mode].  [os.stat] follows
    symbolic links, so a link never shows up as a type of its own. *)
Inductive file_type : Type :=
  | S_IFDIR
  | S_IFREG
  | S_IFIFO
  | S_IFSOCK
  | S_IFCHR
  | S_IFBLK.

(** The filesystem as [os.stat] sees it from the working directory:
    a path is bound to the type of the object [os.stat] resolves it to, and
    unbound when [os.stat] raises [OSError] (no such entry, a dangling link,
    a parent that cannot be searched). *)
Abbreviation filesystem := (gmap string file_type).

(** [/bin/sh -c cmd]: the return code Python stores in [returncode] (the
    exit status, or minus the signal number) and the filesystem the command
    leaves behind. *)
Abbreviation shell := (string -> filesystem -> Z * filesystem).

(** Exceptions raised by the calls the script makes. *)
Inductive exn : Type :=
  | FileNotFoundError (path : string)
  | CalledProcessError (returncode : Z) (cmd : string).

(** What an invocation does to the outside, in the order it does it:
    text handed to [sys.stdout], a child process started from a command
    line (through the shell or not), and the interpreter's report of an
    exception nobody caught, on standard error. *)
Inductive event : Type :=
  | EvStdout (text : string)
  | EvSpawn (cmd : string) (use_shell : bool)
  | EvTraceback (e : exn).

(** The state script code runs in: [sys.argv], the filesystem, and the
    events so far. *)
Record state : Type := mkState {
  st_argv : list string;
  st_fs : filesystem;
  st_trace : list event
}.

(** ** The monad of script code: state and exceptions *)

Definition M (A : Type) : Type := state -> (exn + A) * state.

#[global] Instance M_ret : MRet M := fun A (a : A) s => (inr a, s).

#[global] Instance M_bind : MBind M := fun A B (k : A -> M B) (m : M A) s =>
  match m s with
  | (inl e, s') => (inl e, s')
  | (inr a, s') => k a s'
  end.

Definition raise {A} (e : exn) : M A := fun s => (inl e, s).

(** [try: m except <any>: h] *)
Definition try_except {A} (m : M A) (h : exn -> M A) : M A := fun s =>
  match m s with
  | (inl e, s') => h e s'
  | (inr a, s') => (inr a, s')
  end.

Definition emit (ev : event) : M unit := fun s =>
  (inr tt, mkState (st_argv s) (st_fs s) (st_trace s ++ [ev])).

(** ** The library calls the script makes *)

Definition LF : string := String "010"%char EmptyString.

(** [print(s)]: hands [s] and a newline to [sys.stdout].  There is no
    [flush]: see [console] for when the text leaves the stream. *)
Definition print (s : string) : M unit := emit (EvStdout (s ++ LF)).

(** [os.stat(path)] *)
Definition os_stat (path : string) : M file_type := fun s =>
  match st_fs s !! path with
  | Some ft => (inr ft, s)
  | None => (inl (FileNotFoundError path), s)
  end.

(** [os.path.exists(path)]: whether [os.stat(path)] returns. *)
Definition os_path_exists (path : string) : M bool :=
  try_except (os_stat path ;; mret true) (fun _ => mret false).

(** The child runs to completion: its return code, and the filesystem it
    leaves behind. *)
Definition wait_child (sh : shell) (cmd : string) : M Z := fun s =>
  let '(rc, fs') := sh cmd (st_fs s) in
  (inr rc, mkState (st_argv s) fs' (st_trace s)).

(** [subprocess.run(cmd, shell=..., check=...)]: spawns the child, waits
    for it, and with [check=True] raises [CalledProcessError] on a return
    code other than zero.  The value returned is the [returncode] of the
    [CompletedProcess]. *)
Definition subprocess_run (sh : shell) (cmd : string)
    (use_shell check : bool) : M Z :=
  emit (EvSpawn cmd use_shell) ;;
  rc ← wait_child sh cmd ;
  if check && negb (rc =? 0) then raise (CalledProcessError rc cmd)
  else mret rc.

(** ** update.py *)

Section Script.
Variable sh : shell.

(** [def run(cmd)] *)
Definition run (cmd : string) : M unit :=
  print ("Running: " ++ cmd) ;;
  subprocess_run sh cmd true true ;;
  mret tt.

(** The module body; [name] is the value of [__name__]. *)
Definition update_py (name : string) : M unit :=
  if String.eqb name "__main__" then
    b ← os_path_exists "tools/.git" ;
    if b : bool then run "git submodule update --remote --merge"
    else print "No tools submodule found."
  else mret tt.
End Script.

(** ** Running the script *)

(** What the caller of the script observes. *)
Record outcome : Type := mkOutcome {
  exit_status : Z;
  trace : list event;
  fs_after : filesystem
}.

(** [python3 scripts/update.py args...], the Updater: the module runs as
    [__main__]; the interpreter exits with status 0 when the module body
    returns, and reports an uncaught exception and exits with status 1
    otherwise. *)
Definition Updater (sh : shell) (argv : list string) (fs : filesystem)
    : outcome :=
  match update_py sh "__main__" (mkState argv fs []) with
  | (inr _, s) => mkOutcome 0 (st_trace s) (st_fs s)
  | (inl e, s) => mkOutcome 1 (st_trace s ++ [EvTraceback e]) (st_fs s)
  end.

(** Standard output of a trace. *)
Fixpoint stdout (t : list event) : string :=
  match t with
  | [] => EmptyString
  | EvStdout text :: t' => text ++ stdout t'
  | _ :: t' => stdout t'
  end.

(** The command lines of the child processes of a trace. *)
Fixpoint spawned (t : list event) : list string :=
  match t with
  | [] => []
  | EvSpawn cmd _ :: t' => cmd :: spawned t'
  | _ :: t' => spawned t'
  end.

(** The return code the shell gives a command line on a filesystem. *)
Definition returncode_of (sh : shell) (cmd : string) (fs : filesystem) : Z :=
  fst (sh cmd fs).

(** [os.path.exists] as a function of the filesystem. *)
Definition path_exists (fs : filesystem) (path : string) : bool :=
  match fs !! path with
  | Some _ => true
  | None => false
  end.

(** ** Successive invocations *)

(** One invocation in a row of them: the arguments it is given, and what
    the rest of the system does to the filesystem before it starts. *)
Record invocation : Type := mkInvocation {
  inv_argv : list string;
  inv_before : filesystem -> filesystem
}.

(** The row of invocations: each one starts on the filesystem its
    predecessor left, after the environment's change.  The result pairs the
    filesystem an invocation found with its outcome. *)
Fixpoint session (sh : shell) (invs : list invocation) (fs : filesystem)
    : list (filesystem * outcome) :=
  match invs with
  | [] => []
  | i :: invs' =>
      let fs_i := inv_before i fs in
      let o := Updater sh (inv_argv i) fs_i in
      (fs_i, o) :: session sh invs' (fs_after o)
  end.

(** ** What reaches the console *)








(** ** Command lines the system can execute *)



(** ** Sample environments *)

Module Samples.
(** [tools] is a checked-out submodule whose [.git] is a directory. *)
Definition fs_gitdir : filesystem :=
  {[ "tools" := S_IFDIR; "tools/.git" := S_IFDIR ]}.

(** [tools] is a submodule the way [git submodule add] lays it out:
    [.git] is a regular file that names the real git directory. *)
Definition fs_gitfile : filesystem :=
  {[ "tools" := S_IFDIR; "tools/.git" := S_IFREG ]}.

(** [tools] is there, and empty. *)
Definition fs_tools_only : filesystem := {[ "tools" := S_IFDIR ]}.

(** The command succeeds and touches a file. *)
Definition sh_ok : shell :=
  fun _ fs => (0, <[ "tools/README.md" := S_IFREG ]> fs).

(** The command fails the way git does on a fatal error. *)
Definition sh_fatal : shell := fun _ fs => (128, fs).

(** The command is killed by SIGKILL. *)
Definition sh_killed : shell := fun _ fs => (-9, fs).

(** The command fails as fatally, and wipes the working directory too. *)
Definition sh_wipe : shell := fun _ _ => (128, ∅).

(** Three invocations, with a [tools] directory and then a [README.md]
    appearing in between. *)
Definition three_runs : list invocation :=
  [ mkInvocation [] id;
    mkInvocation ["--force"] (insert "tools" S_IFDIR);
    mkInvocation [] (insert "README.md" S_IFREG) ].

End Samples.

(** * Properties *)

Local Abbreviation marker := "tools/.git" (only parsing).
Local Abbreviation update_cmd :=
  "git submodule update --remote --merge" (only parsing).
Local Abbreviation running_line :=
  ("Running: git submodule update --remote --merge" ++ LF) (only parsing).
Local Abbreviation absent_line := ("No tools submodule found." ++ LF) (only parsing).

(** ** Equations of the calls *)

Lemma bind_inr {A B} (m : M A) (k : A -> M B) s a s' :
  m s = (inr a, s') -> (m ≫= k) s = k a s'.
Proof. intros E. unfold mbind, M_bind. now rewrite E. Qed.

Lemma bind_inl {A B} (m : M A) (k : A -> M B) s e s' :
  m s = (inl e, s') -> (m ≫= k) s = (inl e, s').
Proof. intros E. unfold mbind, M_bind. now rewrite E. Qed.

Lemma os_path_exists_eq path s :
  os_path_exists path s = (inr (path_exists (st_fs s) path), s).
Proof.
  unfold os_path_exists, try_except, os_stat, path_exists.
  unfold mbind, M_bind, mret, M_ret.
  destruct (st_fs s !! path); reflexivity.
Qed.

Lemma print_eq line s :
  print line s =
  (inr tt, mkState (st_argv s) (st_fs s) (st_trace s ++ [EvStdout (line ++ LF)])).
Proof. reflexivity. Qed.

Lemma subprocess_run_check_eq sh cmd use_shell s :
  subprocess_run sh cmd use_shell true s =
  let rc := returncode_of sh cmd (st_fs s) in
  let s' := mkState (st_argv s) (snd (sh cmd (st_fs s)))
                    (st_trace s ++ [EvSpawn cmd use_shell]) in
  (if rc =? 0 then inr rc else inl (CalledProcessError rc cmd), s').
Proof.
  unfold subprocess_run, returncode_of, emit, wait_child, raise.
  unfold mbind, M_bind, mret, M_ret. simpl.
  destruct (sh cmd (st_fs s)) as [rc fs']. simpl.
  destruct (rc =? 0); reflexivity.
Qed.

Lemma run_eq sh cmd s :
  run sh cmd s =
  let rc := returncode_of sh cmd (st_fs s) in
  let s' := mkState (st_argv s) (snd (sh cmd (st_fs s)))
                    (st_trace s ++ [EvStdout (("Running: " ++ cmd) ++ LF);
                                    EvSpawn cmd true]) in
  (if rc =? 0 then inr tt else inl (CalledProcessError rc cmd), s').
Proof.
  unfold run.
  rewrite (bind_inr _ _ _ _ _ (print_eq _ s)).
  pose proof (subprocess_run_check_eq sh cmd true
    (mkState (st_argv s) (st_fs s)
             (st_trace s ++ [EvStdout (("Running: " ++ cmd) ++ LF)]))) as E.
  cbv zeta in E. simpl st_fs in E. simpl st_argv in E. simpl st_trace in E.
  rewrite <- app_assoc in E. cbv zeta.
  destruct (returncode_of sh cmd (st_fs s) =? 0).
  - now rewrite (bind_inr _ _ _ _ _ E).
  - now rewrite (bind_inl _ _ _ _ _ E).
Qed.

(** Run as a script, the module executes the guarded block. *)
Lemma update_py_main sh :
  update_py sh "__main__" =
  (b ← os_path_exists marker ;
   if b : bool then run sh update_cmd else print "No tools submodule found.").
Proof. reflexivity. Qed.

(** Imported under any other name, it does nothing. *)
Lemma update_py_imported sh name s :
  name <> "__main__" -> update_py sh name s = (inr tt, s).
Proof.
  intros Hn. unfold update_py.
  destruct (String.eqb name "__main__") eqn:E; [|reflexivity].
  apply String.eqb_eq in E. contradiction.
Qed.

(** ** The two branches of the Updater *)

Lemma Updater_absent sh argv fs :
  path_exists fs marker = false ->
  Updater sh argv fs = mkOutcome 0 [EvStdout absent_line] fs.
Proof.
  intros Hm. unfold Updater. rewrite update_py_main.
  rewrite (bind_inr _ _ _ _ _ (os_path_exists_eq _ _)).
  cbn [st_fs]. rewrite Hm. reflexivity.
Qed.

Lemma Updater_present sh argv fs :
  path_exists fs marker = true ->
  Updater sh argv fs =
  let rc := returncode_of sh update_cmd fs in
  mkOutcome (if rc =? 0 then 0 else 1)
            (EvStdout running_line :: EvSpawn update_cmd true ::
             if rc =? 0 then [] else [EvTraceback (CalledProcessError rc update_cmd)])
            (snd (sh update_cmd fs)).
Proof.
  intros Hm. unfold Updater. rewrite update_py_main.
  rewrite (bind_inr _ _ _ _ _ (os_path_exists_eq _ _)).
  cbn [st_fs]. rewrite Hm, run_eq. cbn [st_fs st_argv st_trace]. cbv zeta.
  destruct (returncode_of sh update_cmd fs =? 0); reflexivity.
Qed.

(** ** The update branch *)

(** C1, as the code has it: when [os.path.exists] finds [tools/.git], the
    Updater spawns the command [git submodule update --remote --merge] and
    nothing else, and its exit status is 0 when the command's return code is
    0 and 1 for every other return code. *)
Theorem update_branch_spawn_and_status (sh : shell) (argv : list string)
    (fs : filesystem) :
  path_exists fs marker = true ->
  spawned (trace (Updater sh argv fs)) = [update_cmd] /\
  exit_status (Updater sh argv fs) =
    (if returncode_of sh update_cmd fs =? 0 then 0 else 1).
Proof.
  intros Hm. rewrite (Updater_present _ _ _ Hm). cbv zeta.
  destruct (returncode_of sh update_cmd fs =? 0); split; reflexivity.
Qed.

Lemma update_branch_spawn_and_status_witness :
  path_exists Samples.fs_gitdir marker = true /\
  spawned (trace (Updater Samples.sh_fatal ["update.py"] Samples.fs_gitdir))
    = [update_cmd] /\
  exit_status (Updater Samples.sh_fatal ["update.py"] Samples.fs_gitdir) =
    (if returncode_of Samples.sh_fatal update_cmd Samples.fs_gitdir =? 0
     then 0 else 1).
Proof.
  split; [reflexivity|].
  apply (update_branch_spawn_and_status Samples.sh_fatal ["update.py"]
           Samples.fs_gitdir).
  reflexivity.
Defined.

(** C1 as stated fails: git ends with return code 128 on a fatal error, and
    the Updater then exits with status 1, not 128. *)
Lemma exit_status_is_not_the_commands :
  ~ (forall (sh : shell) (argv : list string) (fs : filesystem),
       path_exists fs marker = true ->
       spawned (trace (Updater sh argv fs)) = [update_cmd] /\
       exit_status (Updater sh argv fs) = returncode_of sh update_cmd fs).
Proof.
  intros H.
  destruct (H Samples.sh_fatal [] Samples.fs_gitdir eq_refl) as [_ Hst].
  vm_compute in Hst. discriminate Hst.
Qed.

(** C2, as the code has it: the Updater spawns the command exactly when
    [os.stat] resolves [tools/.git] to an object, of whatever type: a
    regular file there takes the update branch as a directory does. *)
Theorem update_branch_iff_stat_succeeds (sh : shell) (argv : list string)
    (fs : filesystem) :
  spawned (trace (Updater sh argv fs)) = [update_cmd] <->
  exists ft : file_type, fs !! marker = Some ft.
Proof.
  split.
  - intros Hsp. destruct (fs !! marker) as [ft|] eqn:E; [now exists ft|].
    assert (Hm : path_exists fs marker = false)
      by (unfold path_exists; now rewrite E).
    rewrite (Updater_absent _ _ _ Hm) in Hsp. discriminate Hsp.
  - intros [ft E].
    assert (Hm : path_exists fs marker = true)
      by (unfold path_exists; now rewrite E).
    rewrite (Updater_present _ _ _ Hm). cbv zeta.
    destruct (returncode_of sh update_cmd fs =? 0); reflexivity.
Qed.

(** C2 as stated fails: with a regular file at [tools/.git], which is how
    git lays out a submodule, the Updater spawns the command although no
    directory is at that path. *)
Lemma regular_file_marker_triggers_update :
  ~ (forall (sh : shell) (argv : list string) (fs : filesystem),
       spawned (trace (Updater sh argv fs)) = [update_cmd] <->
       fs !! marker = Some S_IFDIR).
Proof.
  intros H.
  destruct (H Samples.sh_ok [] Samples.fs_gitfile) as [Hdir _].
  specialize (Hdir eq_refl). vm_compute in Hdir. discriminate Hdir.
Qed.




(** C9: when the command's return code is not zero, the Updater exits with
    status 1, whichever non-zero code it was. *)
Theorem failure_exit_status_is_one (sh : shell) (argv : list string)
    (fs : filesystem) :
  path_exists fs marker = true ->
  returncode_of sh update_cmd fs <> 0 ->
  exit_status (Updater sh argv fs) = 1.
Proof.
  intros Hm Hrc. rewrite (Updater_present _ _ _ Hm). cbv zeta.
  destruct (Z.eqb_spec (returncode_of sh update_cmd fs) 0);
    [contradiction|reflexivity].
Qed.

Lemma failure_exit_status_is_one_witness :
  path_exists Samples.fs_gitfile marker = true /\
  returncode_of Samples.sh_fatal update_cmd Samples.fs_gitfile <> 0 /\
  exit_status (Updater Samples.sh_fatal [] Samples.fs_gitfile) = 1.
Proof.
  split; [reflexivity|]. split; [discriminate|].
  apply (failure_exit_status_is_one Samples.sh_fatal [] Samples.fs_gitfile).
  - reflexivity.
  - discriminate.
Defined.

(** C4: a non-zero return code of the command makes the Updater exit with a
    non-zero status, after one spawn only and with the
    [CalledProcessError] reaching the interpreter uncaught; the exit status
    is 0 when the command returns 0 and when the marker is absent. *)
Theorem failure_propagates (sh : shell) (argv : list string)
    (fs : filesystem) :
  (path_exists fs marker = true ->
   returncode_of sh update_cmd fs <> 0 ->
   exit_status (Updater sh argv fs) <> 0 /\
   spawned (trace (Updater sh argv fs)) = [update_cmd] /\
   last (trace (Updater sh argv fs)) =
     Some (EvTraceback
             (CalledProcessError (returncode_of sh update_cmd fs) update_cmd)))
  /\
  (path_exists fs marker = true ->
   returncode_of sh update_cmd fs = 0 ->
   exit_status (Updater sh argv fs) = 0)
  /\
  (path_exists fs marker = false ->
   exit_status (Updater sh argv fs) = 0).
Proof.
  split; [|split].
  - intros Hm Hrc. rewrite (Updater_present _ _ _ Hm). cbv zeta.
    destruct (Z.eqb_spec (returncode_of sh update_cmd fs) 0) as [E|_];
      [contradiction|].
    split; [discriminate|]. split; reflexivity.
  - intros Hm Hrc. rewrite (Updater_present _ _ _ Hm). cbv zeta.
    now rewrite Hrc.
  - intros Hm. now rewrite (Updater_absent _ _ _ Hm).
Qed.

Lemma failure_propagates_witness :
  path_exists Samples.fs_gitdir marker = true /\
  returncode_of Samples.sh_killed update_cmd Samples.fs_gitdir = -9 /\
  exit_status (Updater Samples.sh_killed [] Samples.fs_gitdir) <> 0 /\
  spawned (trace (Updater Samples.sh_killed [] Samples.fs_gitdir))
    = [update_cmd] /\
  last (trace (Updater Samples.sh_killed [] Samples.fs_gitdir)) =
    Some (EvTraceback (CalledProcessError (-9) update_cmd)).
Proof.
  split; [reflexivity|]. split; [reflexivity|].
  apply (failure_propagates Samples.sh_killed [] Samples.fs_gitdir).
  - reflexivity.
  - discriminate.
Defined.

(** ** The absent branch *)

(** C3: when [os.path.exists] does not find [tools/.git], the Updater
    writes exactly the line [No tools submodule found.], spawns no process
    and exits with status 0. *)
Theorem absent_branch (sh : shell) (argv : list string) (fs : filesystem) :
  path_exists fs marker = false ->
  trace (Updater sh argv fs) = [EvStdout absent_line] /\
  stdout (trace (Updater sh argv fs)) = absent_line /\
  spawned (trace (Updater sh argv fs)) = [] /\
  exit_status (Updater sh argv fs) = 0.
Proof.
  intros Hm. rewrite (Updater_absent _ _ _ Hm). repeat split.
Qed.

Lemma absent_branch_witness :
  path_exists (∅ : filesystem) marker = false /\
  trace (Updater Samples.sh_fatal [] ∅) = [EvStdout absent_line] /\
  stdout (trace (Updater Samples.sh_fatal [] ∅)) = absent_line /\
  spawned (trace (Updater Samples.sh_fatal [] ∅)) = [] /\
  exit_status (Updater Samples.sh_fatal [] ∅) = 0.
Proof.
  split; [reflexivity|].
  apply (absent_branch Samples.sh_fatal [] ∅). reflexivity.
Defined.

(** C5: with a directory [tools] and nothing at [tools/.git], the Updater
    does what it does with the marker absent: it writes
    [No tools submodule found.], spawns no process and exits with status 0,
    as in a working directory with no [tools] at all. *)
Theorem tools_without_git_is_absent (sh : shell) (argv : list string)
    (fs : filesystem) :
  fs !! "tools" = Some S_IFDIR ->
  fs !! marker = None ->
  stdout (trace (Updater sh argv fs)) = absent_line /\
  spawned (trace (Updater sh argv fs)) = [] /\
  exit_status (Updater sh argv fs) = 0 /\
  trace (Updater sh argv fs) = trace (Updater sh argv (delete "tools" fs)).
Proof.
  intros _ Hg.
  assert (Hm : path_exists fs marker = false)
    by (unfold path_exists; now rewrite Hg).
  assert (Hm' : path_exists (delete "tools" fs) marker = false).
  { unfold path_exists. rewrite lookup_delete_ne by discriminate.
    now rewrite Hg. }
  rewrite (Updater_absent _ _ _ Hm), (Updater_absent _ _ _ Hm').
  repeat split.
Qed.

Lemma tools_without_git_is_absent_witness :
  Samples.fs_tools_only !! "tools" = Some S_IFDIR /\
  Samples.fs_tools_only !! marker = None /\
  stdout (trace (Updater Samples.sh_ok [] Samples.fs_tools_only))
    = absent_line /\
  spawned (trace (Updater Samples.sh_ok [] Samples.fs_tools_only)) = [] /\
  exit_status (Updater Samples.sh_ok [] Samples.fs_tools_only) = 0 /\
  trace (Updater Samples.sh_ok [] Samples.fs_tools_only) =
    trace (Updater Samples.sh_ok [] (delete "tools" Samples.fs_tools_only)).
Proof.
  split; [reflexivity|]. split; [reflexivity|].
  apply (tools_without_git_is_absent Samples.sh_ok [] Samples.fs_tools_only);
    reflexivity.
Defined.

(** C7: in a row of invocations, with anything happening to the filesystem
    in between, every invocation that does not find the marker ends the
    same way: any two of them have the same trace and the same exit status,
    and each leaves the filesystem as it found it. *)
Theorem absent_branch_history_independent (sh : shell)
    (invs : list invocation) (fs : filesystem) :
  Forall (fun r => path_exists r.1 marker = false) (session sh invs fs) ->
  forall (i j : nat) (ri rj : filesystem * outcome),
    session sh invs fs !! i = Some ri ->
    session sh invs fs !! j = Some rj ->
    trace ri.2 = trace rj.2 /\
    stdout (trace ri.2) = stdout (trace rj.2) /\
    exit_status ri.2 = exit_status rj.2 /\
    fs_after ri.2 = ri.1.
Proof.
  intros Hall.
  assert (Hshape : Forall
            (fun r => r.2 = mkOutcome 0 [EvStdout absent_line] r.1)
            (session sh invs fs)).
  { revert fs Hall. induction invs as [|inv invs IH]; intros fs Hall.
    - constructor.
    - cbn [session] in *. apply Forall_cons in Hall as [Hm Hall].
      cbn [fst] in Hm. constructor.
      + cbn [fst snd]. apply Updater_absent, Hm.
      + apply IH, Hall. }
  intros i j ri rj Hi Hj.
  rewrite Forall_lookup in Hshape.
  rewrite (Hshape i ri Hi), (Hshape j rj Hj). repeat split.
Qed.

Lemma absent_branch_history_independent_witness :
  Forall (fun r => path_exists r.1 marker = false)
         (session Samples.sh_fatal Samples.three_runs ∅) /\
  exists r0 r2 : filesystem * outcome,
    session Samples.sh_fatal Samples.three_runs ∅ !! 0%nat = Some r0 /\
    session Samples.sh_fatal Samples.three_runs ∅ !! 2%nat = Some r2 /\
    trace r0.2 = trace r2.2 /\
    stdout (trace r0.2) = stdout (trace r2.2) /\
    exit_status r0.2 = exit_status r2.2 /\
    fs_after r0.2 = r0.1.
Proof.
  split; [repeat constructor|].
  eexists. eexists.
  split; [reflexivity|]. split; [reflexivity|].
  apply (absent_branch_history_independent Samples.sh_fatal
           Samples.three_runs ∅ ltac:(repeat constructor) 0%nat 2%nat);
    reflexivity.
Defined.

(** ** What the outcome depends on *)

(** C8: the command-line arguments have no influence: two invocations that
    differ in [sys.argv] only have the same trace, the same exit status and
    leave the same filesystem. *)
Theorem arguments_are_ignored (sh : shell) (argv1 argv2 : list string)
    (fs : filesystem) :
  Updater sh argv1 fs = Updater sh argv2 fs.
Proof.
  destruct (path_exists fs marker) eqn:Hm.
  - now rewrite !(Updater_present _ _ _ Hm).
  - now rewrite !(Updater_absent _ _ _ Hm).
Qed.

(** C10: two invocations for which [os.path.exists] gives the same answer
    and, where the command is spawned, the command gives the same return
    code, have the same trace, hence the same standard output, and the same
    exit status; this whatever else differs between them (arguments, the
    rest of the filesystem, what the command does). *)
Theorem outcome_determined_by_observations (sh1 sh2 : shell)
    (argv1 argv2 : list string) (fs1 fs2 : filesystem) :
  path_exists fs1 marker = path_exists fs2 marker ->
  (path_exists fs1 marker = true ->
   returncode_of sh1 update_cmd fs1 = returncode_of sh2 update_cmd fs2) ->
  trace (Updater sh1 argv1 fs1) = trace (Updater sh2 argv2 fs2) /\
  stdout (trace (Updater sh1 argv1 fs1)) =
    stdout (trace (Updater sh2 argv2 fs2)) /\
  exit_status (Updater sh1 argv1 fs1) = exit_status (Updater sh2 argv2 fs2).
Proof.
  intros Hprobe Hrc.
  destruct (path_exists fs1 marker) eqn:Hm1; symmetry in Hprobe.
  - rewrite (Updater_present _ _ _ Hm1), (Updater_present _ _ _ Hprobe).
    cbv zeta. rewrite (Hrc eq_refl). repeat split.
  - rewrite (Updater_absent _ _ _ Hm1), (Updater_absent _ _ _ Hprobe).
    repeat split.
Qed.

Lemma outcome_determined_by_observations_witness :
  path_exists Samples.fs_gitdir marker
    = path_exists Samples.fs_gitfile marker /\
  returncode_of Samples.sh_fatal update_cmd Samples.fs_gitdir
    = returncode_of Samples.sh_wipe update_cmd Samples.fs_gitfile /\
  trace (Updater Samples.sh_fatal [] Samples.fs_gitdir)
    = trace (Updater Samples.sh_wipe ["-v"] Samples.fs_gitfile) /\
  stdout (trace (Updater Samples.sh_fatal [] Samples.fs_gitdir))
    = stdout (trace (Updater Samples.sh_wipe ["-v"] Samples.fs_gitfile)) /\
  exit_status (Updater Samples.sh_fatal [] Samples.fs_gitdir)
    = exit_status (Updater Samples.sh_wipe ["-v"] Samples.fs_gitfile).
Proof.
  split; [reflexivity|]. split; [reflexivity|].
  apply (outcome_determined_by_observations Samples.sh_fatal Samples.sh_wipe
           [] ["-v"] Samples.fs_gitdir Samples.fs_gitfile).
  - reflexivity.
  - intros _. reflexivity.
Defined.

(** * Further properties of the script *)

(** ** Helper equations *)

Lemma update_py_main_eq sh s :
  update_py sh "__main__" s =
  if path_exists (st_fs s) marker then run sh update_cmd s
  else print "No tools submodule found." s.
Proof.
  rewrite update_py_main.
  rewrite (bind_inr _ _ _ _ _ (os_path_exists_eq _ _)).
  destruct (path_exists (st_fs s) marker); reflexivity.
Qed.

Lemma run_state_eq sh cmd s :
  snd (run sh cmd s) =
  mkState (st_argv s) (snd (sh cmd (st_fs s)))
          (st_trace s ++ [EvStdout (("Running: " ++ cmd) ++ LF);
                          EvSpawn cmd true]).
Proof.
  rewrite run_eq. cbv zeta.
  destruct (returncode_of sh cmd (st_fs s) =? 0); reflexivity.
Qed.

(** ** The function [run] *)



(** ** The whole script *)

(** X6: the Updater does not touch the filesystem itself: what it leaves
    is what the command left when the marker was found, and what it found
    when the marker was absent. *)
Theorem filesystem_changes_only_by_the_command (sh : shell)
    (argv : list string) (fs : filesystem) :
  fs_after (Updater sh argv fs) =
    if path_exists fs marker then snd (sh update_cmd fs) else fs.
Proof.
  destruct (path_exists fs marker) eqn:Hm.
  - now rewrite (Updater_present _ _ _ Hm).
  - now rewrite (Updater_absent _ _ _ Hm).
Qed.

(** X8: from any state and under any module name, the module body only
    appends to the trace, spawns at most one child, which can only be the
    update command, leaves [sys.argv] alone, and leaves the filesystem alone
    unless it spawned the command. *)
Theorem module_body_frame (sh : shell) (name : string) (s : state) :
  exists evs : list event,
    st_trace (snd (update_py sh name s)) = (st_trace s ++ evs)%list /\
    (spawned evs = [] \/ spawned evs = [update_cmd]) /\
    st_argv (snd (update_py sh name s)) = st_argv s /\
    (spawned evs = [] -> st_fs (snd (update_py sh name s)) = st_fs s).
Proof.
  destruct (String.eqb_spec name "__main__") as [->|Hn].
  - rewrite update_py_main_eq.
    destruct (path_exists (st_fs s) marker).
    + rewrite run_state_eq. cbn [st_trace st_argv st_fs].
      eexists. split; [reflexivity|]. cbn [spawned].
      split; [now right|]. split; [reflexivity|]. intros Hsp. discriminate Hsp.
    + rewrite print_eq. cbn [snd st_trace st_argv st_fs].
      eexists. split; [reflexivity|]. cbn [spawned].
      split; [now left|]. split; reflexivity.
  - rewrite (update_py_imported _ _ _ Hn). cbn [snd].
    exists []. rewrite app_nil_r. repeat split. now left.
Qed.
